(** * pysbrain: the SBrain virtual machine of [src/pysbrain/lib.py]

    A shallow embedding of the class [SBrainVirtualMachine] and the
    properties of its constructor and of its six methods.

    Python lists are objects: [load_data_tape] keeps the list it is handed,
    and [write_data_t], [push_data_s] and [pop_data_s] change a list in
    place.  The embedding therefore has a store of list objects, and the
    machine's attributes [data_t], [data_s], [exec_t] and [jump_s] hold
    references into it.  A method is a function from the state before the call
    to the outcome (a returned value or a raised exception) and the state
    after it: what was assigned before a [raise] stays assigned. *)

From stdpp Require Import gmap list strings.

#[local] Set Warnings "-clear-no-such-hyp".
Local Open Scope Z_scope.

(** ** Values, exceptions, outcomes *)

(** The Python values that a caller can hand to the machine, by their
    [type(...)].  [True] and [False] have type [bool], which is not [int]. *)
Inductive value : Type :=
| VInt (z : Z)
| VBool (b : bool)
| VStr (s : string)
| VNone.

(** [type(value) is int] *)
Definition is_int (v : value) : bool :=
  match v with
  | VInt _ => true
  | _ => false
  end.

(** The built-in exceptions that the class raises.  [ValueError] is the one
    the two type checks raise by hand; the specification calls that failure
    TypeMismatch. *)
Inductive exn : Type :=
| TypeError
| ValueError
| IndexError.

Inductive outcome (A : Type) : Type :=
| Ret (a : A)
| Raise (e : exn).
Arguments Ret {A} a.
Arguments Raise {A} e.

(** ** The store and the object *)

(** A reference to a list object. *)
Abbreviation loc := nat (only parsing).

(** One record for the store of list objects and the twelve attributes of
    [self], named as in the source. *)
Record state : Type := State {
  store : gmap nat (list value);
  data_t : loc;
  _len_data_t : Z;
  data_s : loc;
  _len_data_s : Z;
  exec_t : loc;
  _len_exec_t : Z;
  jump_s : loc;
  _len_jump_s : Z;
  data_p : Z;
  inst_p : Z;
  jump_p : Z;
  auxi_r : Z
}.

(** The list that a reference denotes.  Every reference that Python can hold
    is in the store; a reference outside it reads as the empty list. *)
Definition deref (s : state) (r : loc) : list value := store s !!! r.

(** Attribute assignment, [self.x = v]. *)
Definition set_store (h : gmap nat (list value)) (s : state) : state :=
  State h (data_t s) (_len_data_t s) (data_s s) (_len_data_s s) (exec_t s)
        (_len_exec_t s) (jump_s s) (_len_jump_s s) (data_p s) (inst_p s)
        (jump_p s) (auxi_r s).
Definition set_data_t (r : loc) (s : state) : state :=
  State (store s) r (_len_data_t s) (data_s s) (_len_data_s s) (exec_t s)
        (_len_exec_t s) (jump_s s) (_len_jump_s s) (data_p s) (inst_p s)
        (jump_p s) (auxi_r s).
Definition set__len_data_t (n : Z) (s : state) : state :=
  State (store s) (data_t s) n (data_s s) (_len_data_s s) (exec_t s)
        (_len_exec_t s) (jump_s s) (_len_jump_s s) (data_p s) (inst_p s)
        (jump_p s) (auxi_r s).
Definition set_data_s (r : loc) (s : state) : state :=
  State (store s) (data_t s) (_len_data_t s) r (_len_data_s s) (exec_t s)
        (_len_exec_t s) (jump_s s) (_len_jump_s s) (data_p s) (inst_p s)
        (jump_p s) (auxi_r s).
Definition set__len_data_s (n : Z) (s : state) : state :=
  State (store s) (data_t s) (_len_data_t s) (data_s s) n (exec_t s)
        (_len_exec_t s) (jump_s s) (_len_jump_s s) (data_p s) (inst_p s)
        (jump_p s) (auxi_r s).
Definition set_exec_t (r : loc) (s : state) : state :=
  State (store s) (data_t s) (_len_data_t s) (data_s s) (_len_data_s s) r
        (_len_exec_t s) (jump_s s) (_len_jump_s s) (data_p s) (inst_p s)
        (jump_p s) (auxi_r s).
Definition set__len_exec_t (n : Z) (s : state) : state :=
  State (store s) (data_t s) (_len_data_t s) (data_s s) (_len_data_s s)
        (exec_t s) n (jump_s s) (_len_jump_s s) (data_p s) (inst_p s)
        (jump_p s) (auxi_r s).
Definition set_jump_s (r : loc) (s : state) : state :=
  State (store s) (data_t s) (_len_data_t s) (data_s s) (_len_data_s s)
        (exec_t s) (_len_exec_t s) r (_len_jump_s s) (data_p s) (inst_p s)
        (jump_p s) (auxi_r s).
Definition set__len_jump_s (n : Z) (s : state) : state :=
  State (store s) (data_t s) (_len_data_t s) (data_s s) (_len_data_s s)
        (exec_t s) (_len_exec_t s) (jump_s s) n (data_p s) (inst_p s)
        (jump_p s) (auxi_r s).
Definition set_data_p (n : Z) (s : state) : state :=
  State (store s) (data_t s) (_len_data_t s) (data_s s) (_len_data_s s)
        (exec_t s) (_len_exec_t s) (jump_s s) (_len_jump_s s) n (inst_p s)
        (jump_p s) (auxi_r s).
Definition set_inst_p (n : Z) (s : state) : state :=
  State (store s) (data_t s) (_len_data_t s) (data_s s) (_len_data_s s)
        (exec_t s) (_len_exec_t s) (jump_s s) (_len_jump_s s) (data_p s) n
        (jump_p s) (auxi_r s).
Definition set_jump_p (n : Z) (s : state) : state :=
  State (store s) (data_t s) (_len_data_t s) (data_s s) (_len_data_s s)
        (exec_t s) (_len_exec_t s) (jump_s s) (_len_jump_s s) (data_p s)
        (inst_p s) n (auxi_r s).
Definition set_auxi_r (n : Z) (s : state) : state :=
  State (store s) (data_t s) (_len_data_t s) (data_s s) (_len_data_s s)
        (exec_t s) (_len_exec_t s) (jump_s s) (_len_jump_s s) (data_p s)
        (inst_p s) (jump_p s) n.

(** ** Method bodies: state and exceptions *)

Definition M (A : Type) : Type := state -> outcome A * state.

Definition ret {A} (a : A) : M A := fun s => (Ret a, s).

Definition raise {A} (e : exn) : M A := fun s => (Raise e, s).

Definition bind {A B} (m : M A) (k : A -> M B) : M B :=
  fun s =>
    match m s with
    | (Ret a, s') => k a s'
    | (Raise e, s') => (Raise e, s')
    end.

Notation "x <- m ;; k" := (bind m (fun x => k))
  (at level 100, m at next level, right associativity).
Notation "m ;;; k" := (bind m (fun _ => k))
  (at level 100, right associativity).

(** Reading an attribute, and assigning one. *)
Definition gets {A} (f : state -> A) : M A := fun s => (Ret (f s), s).
Definition modify (f : state -> state) : M unit := fun s => (Ret tt, f s).

(** ** List objects *)

(** Python's index rule for a list of length [n]: [0 .. n-1] are the cells,
    [-n .. -1] count from the end, anything else is out of range. *)
Definition py_index (n : nat) (i : Z) : option nat :=
  if decide (0 <= i < Z.of_nat n) then Some (Z.to_nat i)
  else if decide (- Z.of_nat n <= i < 0) then Some (Z.to_nat (Z.of_nat n + i))
  else None.

(** [[...]] : a new list object. *)
Definition new_list (l : list value) : M loc :=
  fun s =>
    let r := fresh (dom (store s)) in
    (Ret r, set_store (<[r := l]> (store s)) s).

(** [len(r)] *)
Definition len (r : loc) : M Z :=
  fun s => (Ret (Z.of_nat (length (deref s r))), s).

(** [r[i]] *)
Definition getitem (r : loc) (i : Z) : M value :=
  fun s =>
    match py_index (length (deref s r)) i with
    | Some k =>
        match deref s r !! k with
        | Some v => (Ret v, s)
        | None => (Raise IndexError, s)
        end
    | None => (Raise IndexError, s)
    end.

(** [r[i] = v] *)
Definition setitem (r : loc) (i : Z) (v : value) : M unit :=
  fun s =>
    match py_index (length (deref s r)) i with
    | Some k => (Ret tt, set_store (<[r := <[k := v]> (deref s r)]> (store s)) s)
    | None => (Raise IndexError, s)
    end.

(** [r.append(v)] *)
Definition append (r : loc) (v : value) : M unit :=
  fun s => (Ret tt, set_store (<[r := deref s r ++ [v]]> (store s)) s).

(** [r.pop()] *)
Definition list_pop (r : loc) : M value :=
  fun s =>
    match last (deref s r) with
    | Some v => (Ret v, set_store (<[r := removelast (deref s r)]> (store s)) s)
    | None => (Raise IndexError, s)
    end.

(** [a, b, c, d = z] with [z] an int: an int cannot be iterated, so the
    unpacking raises [TypeError] and assigns nothing. *)
Definition unpack_int (z : Z) : M (Z * Z * Z * Z) := raise TypeError.

(** ** The class [SBrainVirtualMachine] *)

(** [__init__], lines 9 to 22.  It runs on the new object, whose attributes
    are not yet set: here the state before it holds arbitrary ones. *)
Definition __init__ : M unit :=
  r <- new_list [VInt 0] ;;
  modify (set_data_t r) ;;;
  modify (set__len_data_t 1) ;;;
  r <- new_list [VInt 0] ;;
  modify (set_data_s r) ;;;
  modify (set__len_data_s 0) ;;;
  r <- new_list [VInt 0] ;;
  modify (set_exec_t r) ;;;
  modify (set__len_exec_t 1) ;;;
  r <- new_list [VInt 0] ;;
  modify (set_jump_s r) ;;;
  modify (set__len_jump_s 0) ;;;
  t <- unpack_int 0 ;;
  let '(a, b, c, d) := t in
  modify (set_data_p a) ;;;
  modify (set_inst_p b) ;;;
  modify (set_jump_p c) ;;;
  modify (set_auxi_r d).

(** [load_data_tape], lines 24 to 32.  [data_tape] is the caller's list
    object; no copy is made. *)
Definition load_data_tape (data_tape : loc) : M unit :=
  modify (set_data_t data_tape) ;;;
  n <- len data_tape ;;
  modify (set__len_data_t n) ;;;
  modify (set_data_p 0).

(** [load_executable_tape], lines 34 to 42. *)
Definition load_executable_tape (exec_tape : loc) : M unit :=
  modify (set_exec_t exec_tape) ;;;
  n <- len exec_tape ;;
  modify (set__len_exec_t n) ;;;
  modify (set_inst_p 0).

(** [write_data_t], lines 44 to 52. *)
Definition write_data_t (v : value) : M unit :=
  if negb (is_int v) then raise ValueError
  else
    t <- gets data_t ;;
    p <- gets data_p ;;
    setitem t p v.

(** [read_data_t], lines 54 to 60.  When the test fails the body ends
    without a [return], and the call yields [None]. *)
Definition read_data_t : M value :=
  n <- gets _len_data_t ;;
  p <- gets data_p ;;
  if n >=? p then
    t <- gets data_t ;;
    getitem t p
  else ret VNone.

(** [push_data_s], lines 62 to 71. *)
Definition push_data_s (v : value) : M unit :=
  if negb (is_int v) then raise ValueError
  else
    r <- gets data_s ;;
    append r v ;;;
    n <- gets _len_data_s ;;
    modify (set__len_data_s (n + 1)).

(** [pop_data_s], lines 73 to 83.  The counter is decremented before the
    list is popped. *)
Definition pop_data_s : M value :=
  n <- gets _len_data_s ;;
  if n >? 0 then
    modify (set__len_data_s (n - 1)) ;;;
    r <- gets data_s ;;
    list_pop r
  else ret (VInt 0).

(** ** Callers *)

(** The state a call leaves, whatever its outcome. *)
Definition after {A} (m : M A) (s : state) : state := (m s).2.

(** The object before [__init__] has run, in an empty store. *)
Definition blank : state := State ∅ 0%nat 0 0%nat 0 0%nat 0 0%nat 0 0 0 0 0.

(** Line 22 raises on every construction, so no caller ever gets a machine
    from [SBrainVirtualMachine()].  The states that the methods are then
    studied on start from the object as [__init__] leaves it when it raises:
    the lists and counters of lines 10 to 20, and the four registers not
    assigned, which here are whatever [s0] holds. *)
Definition constructed (s0 : state) : state := after __init__ s0.

(** What a caller can do with a machine: build a list of its own, or call one
    of the six methods.  The list handed to a load is any list object,
    the caller's or one of the machine's. *)
Inductive call : Type :=
| CNewList (l : list value)
| CLoadDataTape (r : loc)
| CLoadExecutableTape (r : loc)
| CWriteDataT (v : value)
| CReadDataT
| CPushDataS (v : value)
| CPopDataS.

Definition do_call (c : call) (s : state) : state :=
  match c with
  | CNewList l => after (new_list l) s
  | CLoadDataTape r => after (load_data_tape r) s
  | CLoadExecutableTape r => after (load_executable_tape r) s
  | CWriteDataT v => after (write_data_t v) s
  | CReadDataT => after read_data_t s
  | CPushDataS v => after (push_data_s v) s
  | CPopDataS => after pop_data_s s
  end.

Definition do_calls (cs : list call) (s : state) : state :=
  fold_left (fun s c => do_call c s) cs s.

(** [n] calls of [pop_data_s] in a row, with the values they return. *)
Fixpoint pops (n : nat) : M (list value) :=
  match n with
  | O => ret []
  | S k =>
      v <- pop_data_s ;;
      vs <- pops k ;;
      ret (v :: vs)
  end.

(** ** Loop entry

    [lib.py] has no dispatch loop and no opcode table: of the instructions it
    only names opcode 4 for [[], in the comment on [jump_s].  What executing a
    loop-enter instruction does is taken from the specification, section
    4.3, over the machine state above; the cell at [data_p] is read as the
    source reads it, with [read_data_t]. *)

(** Modelled from the spec: the opcode classes of the table of section 4.3;
    the source has no instruction enumeration. *)
Inductive instruction : Type :=
| MoveRight
| MoveLeft
| Increment
| Decrement
| Push
| PopTransfer
| LoopEnter
| LoopExit
| Input
| Output
| Halt.

(** Modelled from the spec: the fault kinds of section 4.4; the source has
    no step function. *)
Inductive fault : Type :=
| TypeMismatch
| UnbalancedLoop
| InvalidOpcode.

(** Modelled from the spec: the status that a step returns, section 4.4. *)
Inductive status : Type :=
| Continue
| Halted
| Faulted (k : fault).

(** Modelled from the spec: the test that a cell is 0, for the loop-enter
    row of the table of section 4.3; the source has no such test. *)
Definition is_zero (c : value) : bool :=
  match c with
  | VInt 0 => true
  | _ => false
  end.

Section LoopEnter.

(** The specification leaves the table of integer codes to the design; it
    is a parameter here. *)
Variable decode : Z -> option instruction.

(** Modelled from the spec: which cells of the executable tape hold a
    loop-enter instruction, under [decode]; the source decodes nothing. *)
Definition is_loop_enter (c : value) : bool :=
  match c with
  | VInt z => match decode z with Some LoopEnter => true | _ => false end
  | _ => false
  end.

(** Modelled from the spec: likewise for loop-exit. *)
Definition is_loop_exit (c : value) : bool :=
  match c with
  | VInt z => match decode z with Some LoopExit => true | _ => false end
  | _ => false
  end.

(** Modelled from the spec: the forward scan of section 4.3, which the
    source does not have.  [rest] is the executable tape from position
    [pos] on and [counter] the nesting counter.  Each loop-enter increments
    the counter and each loop-exit decrements it; the position where it
    reaches 0 is the matching exit.  [None]: the scan ran off the end of
    the tape. *)
Fixpoint scan_forward (rest : list value) (pos : Z) (counter : Z) : option Z :=
  match rest with
  | [] => None
  | c :: rest' =>
      if is_loop_enter c then scan_forward rest' (pos + 1) (counter + 1)
      else if is_loop_exit c then
        if counter - 1 =? 0 then Some pos
        else scan_forward rest' (pos + 1) (counter - 1)
      else scan_forward rest' (pos + 1) counter
  end.

(** Modelled from the spec: executing the loop-enter instruction at
    [inst_p], section 4.3, which the source does not have.  The cell at
    [data_p] is read with the source's [read_data_t], and what that raises
    the step raises.  With the cell at 0 the scan starts just after the
    instruction with the counter at 1, and execution resumes just after the
    matching exit; a scan that runs off the tape is the fault UnbalancedLoop.
    Otherwise [inst_p] is pushed on the jump stack and execution continues
    with the next instruction. *)
Definition loop_enter : M status :=
  c <- read_data_t ;;
  p <- gets inst_p ;;
  if is_zero c then
    t <- gets exec_t ;;
    tape <- gets (fun s => deref s t) ;;
    match scan_forward (drop (Z.to_nat (p + 1)) tape) (p + 1) 1 with
    | Some k => modify (set_inst_p (k + 1)) ;;; ret Continue
    | None => ret (Faulted UnbalancedLoop)
    end
  else
    j <- gets jump_s ;;
    append j (VInt p) ;;;
    n <- gets _len_jump_s ;;
    modify (set__len_jump_s (n + 1)) ;;;
    modify (set_inst_p (p + 1)) ;;;
    ret Continue.

(** A stretch of the executable tape in which every loop-enter has its
    loop-exit, properly nested. *)
Inductive balanced : list value -> Prop :=
| balanced_nil : balanced []
| balanced_other c l :
    is_loop_enter c = false -> is_loop_exit c = false ->
    balanced l -> balanced (c :: l)
| balanced_loop e body x l :
    is_loop_enter e = true -> is_loop_exit x = true ->
    balanced body -> balanced l ->
    balanced (e :: body ++ x :: l).

End LoopEnter.

(** A table to run the scan on: 4 is loop-enter, as the comment on [jump_s]
    has it, and 5 is taken for loop-exit; no other code takes part in loop
    matching. *)
Definition sbrain_decode (z : Z) : option instruction :=
  match z with
  | 4 => Some LoopEnter
  | 5 => Some LoopExit
  | _ => None
  end.

(** ** The stacks and their depth counters *)

(** How the source keeps a stack: the list starts as [[0]] with the depth
    at 0, so the list is always one longer than the depth, and the two stacks
    are two list objects. *)
Definition stacks_kept (s : state) : Prop :=
  Z.of_nat (length (deref s (data_s s))) = _len_data_s s + 1
  /\ Z.of_nat (length (deref s (jump_s s))) = _len_jump_s s + 1
  /\ 0 <= _len_data_s s
  /\ 0 <= _len_jump_s s
  /\ data_s s <> jump_s s.

(** ** Callers of several methods *)

(** [push_data_s] of each integer of [zs], first to last. *)
Fixpoint pushes (zs : list Z) : M unit :=
  match zs with
  | [] => ret tt
  | z :: zs' => push_data_s (VInt z) ;;; pushes zs'
  end.

(** The list object that a call of a load is handed. *)
Definition load_arg (c : call) : option loc :=
  match c with
  | CLoadDataTape r => Some r
  | CLoadExecutableTape r => Some r
  | _ => None
  end.

(** A caller who hands the loads lists that exist and that are not the list
    of the machine's data stack. *)
Definition proper_call (s : state) (c : call) : Prop :=
  match load_arg c with
  | Some r => is_Some (store s !! r) /\ r <> data_s s
  | None => True
  end.

Fixpoint proper_calls (cs : list call) (s : state) : Prop :=
  match cs with
  | [] => True
  | c :: cs' => proper_call s c /\ proper_calls cs' (do_call c s)
  end.

(** The calls that assign a register: [load_data_tape] sets [data_p] and
    [load_executable_tape] sets [inst_p], both to 0. *)
Definition loads_data_tape (c : call) : bool :=
  match c with
  | CLoadDataTape _ => true
  | _ => false
  end.

Definition loads_executable_tape (c : call) : bool :=
  match c with
  | CLoadExecutableTape _ => true
  | _ => false
  end.

(** What no method changes: [jump_p], [auxi_r], the jump stack's depth and
    the two stack objects are as in [s0]; the cached length of the data tape
    is a length, so not negative. *)
Definition at_rest (s0 s : state) : Prop :=
  jump_p s = jump_p s0 /\ auxi_r s = auxi_r s0
  /\ _len_jump_s s = _len_jump_s s0
  /\ data_s s = data_s s0 /\ jump_s s = jump_s s0
  /\ 0 <= _len_data_t s.

(** The cached lengths are the lengths of the tapes, and neither tape is the
    list of the data stack. *)
Definition tapes_measured (s : state) : Prop :=
  _len_data_t s = Z.of_nat (length (deref s (data_t s)))
  /\ _len_exec_t s = Z.of_nat (length (deref s (exec_t s)))
  /\ data_t s <> data_s s /\ exec_t s <> data_s s
  /\ is_Some (store s !! data_t s) /\ is_Some (store s !! exec_t s).

(** Every cell of the list is of type [int]. *)
Definition ints_only (l : list value) : Prop :=
  Forall (fun v => is_int v = true) l.

(** * Properties *)

(** ** Helpers *)

Ltac unfold_methods :=
  unfold __init__, load_data_tape, load_executable_tape, write_data_t,
    read_data_t, push_data_s, pop_data_s, unpack_int, after.

Ltac unfold_monad :=
  unfold bind, ret, raise, gets, modify, len, getitem, setitem, append,
    list_pop, new_list.

Ltac run := unfold_methods; unfold_monad; simpl.

Lemma py_index_within (n : nat) (i : Z) :
  0 <= i < Z.of_nat n -> py_index n i = Some (Z.to_nat i).
Proof.
  intros Hi. unfold py_index.
  by destruct (decide (0 <= i < Z.of_nat n)).
Qed.

Lemma py_index_nat (n k : nat) :
  (k < n)%nat -> py_index n (Z.of_nat k) = Some k.
Proof.
  intros Hk. rewrite py_index_within by lia. by rewrite Nat2Z.id.
Qed.

Lemma py_index_ge (n : nat) (i : Z) :
  Z.of_nat n <= i -> py_index n i = None.
Proof.
  intros Hi. unfold py_index.
  destruct (decide (0 <= i < Z.of_nat n)); [lia|].
  destruct (decide (- Z.of_nat n <= i < 0)); [lia|done].
Qed.

Lemma py_index_lt (n k : nat) (i : Z) :
  py_index n i = Some k -> (k < n)%nat.
Proof.
  unfold py_index. intros H.
  destruct (decide (0 <= i < Z.of_nat n)); [simplify_eq; lia|].
  destruct (decide (- Z.of_nat n <= i < 0)); [simplify_eq; lia|done].
Qed.

Lemma deref_lookup (s : state) (r : loc) (l : list value) :
  store s !! r = Some l -> deref s r = l.
Proof. intros H. unfold deref. by rewrite lookup_total_alt, H. Qed.

(** ** [read_data_t] *)

(** C1: on a machine whose [_len_data_t] is the length of its data tape,
    [read_data_t] returns the stored cell when [data_p] is one of the indices
    [0 .. len-1]; with [data_p] equal to the length the test
    [_len_data_t >= data_p] passes and the indexing raises [IndexError]; with
    [data_p] beyond the length the method returns [None].  In neither of
    the last two cases does it return 0. *)
Theorem read_data_t_at_and_beyond_length (s : state) :
  _len_data_t s = Z.of_nat (length (deref s (data_t s))) ->
  (forall (k : nat) (v : value),
      data_p s = Z.of_nat k -> deref s (data_t s) !! k = Some v ->
      read_data_t s = (Ret v, s))
  /\ (data_p s = _len_data_t s -> read_data_t s = (Raise IndexError, s))
  /\ (_len_data_t s < data_p s -> read_data_t s = (Ret VNone, s)).
Proof.
  intros Hlen. repeat split.
  - intros k v Hp Hk. run. rewrite Hp.
    pose proof (lookup_lt_Some _ _ _ Hk) as Hlt.
    destruct (Z.geb_spec (_len_data_t s) (Z.of_nat k)) as [_|Hge]; [|lia].
    rewrite py_index_nat by done. by rewrite Hk.
  - intros Hp. run. rewrite Hp.
    destruct (Z.geb_spec (_len_data_t s) (_len_data_t s)) as [_|Hge]; [|lia].
    rewrite py_index_ge by lia. done.
  - intros Hp. run.
    destruct (Z.geb_spec (_len_data_t s) (data_p s)) as [Hge|_]; [lia|done].
Qed.

Lemma read_data_t_at_and_beyond_length_witness :
  read_data_t (set_data_p 1 (constructed blank))
    = (Raise IndexError, set_data_p 1 (constructed blank))
  /\ read_data_t (set_data_p 2 (constructed blank))
    = (Ret VNone, set_data_p 2 (constructed blank))
  /\ read_data_t (constructed blank) = (Ret (VInt 0), constructed blank).
Proof.
  split; [|split].
  - apply (read_data_t_at_and_beyond_length (set_data_p 1 (constructed blank)));
      reflexivity.
  - apply (read_data_t_at_and_beyond_length (set_data_p 2 (constructed blank)));
      reflexivity.
  - destruct (read_data_t_at_and_beyond_length (constructed blank) eq_refl)
      as [Hcell _].
    apply (Hcell 0%nat); reflexivity.
Defined.

(** ** [__init__] *)

(** What [__init__] does: four new list objects, eight attributes, and the
    exception of line 22, which leaves the four registers as they were. *)
Lemma init_unfold (s0 : state) :
  exists r1 r2 r3 r4 : loc,
    NoDup [r1; r2; r3; r4]
    /\ (forall r, r ∈ [r1; r2; r3; r4] -> store s0 !! r = None)
    /\ __init__ s0 =
         (Raise TypeError,
          State (<[r4 := [VInt 0]]> (<[r3 := [VInt 0]]>
                   (<[r2 := [VInt 0]]> (<[r1 := [VInt 0]]> (store s0)))))
                r1 1 r2 0 r3 1 r4 0
                (data_p s0) (inst_p s0) (jump_p s0) (auxi_r s0)).
Proof.
  run. generalize (store s0) as h0. intros h0.
  set (r1 := fresh (dom h0)).
  set (h1 := <[r1 := [VInt 0]]> h0).
  set (r2 := fresh (dom h1)).
  set (h2 := <[r2 := [VInt 0]]> h1).
  set (r3 := fresh (dom h2)).
  set (h3 := <[r3 := [VInt 0]]> h2).
  set (r4 := fresh (dom h3)).
  assert (H1 : r1 ∉ dom h0) by apply is_fresh.
  assert (H2 : r2 ∉ dom h1) by apply is_fresh.
  assert (H3 : r3 ∉ dom h2) by apply is_fresh.
  assert (H4 : r4 ∉ dom h3) by apply is_fresh.
  unfold h3 in H4. unfold h2 in H3, H4. unfold h1 in H2, H3, H4.
  rewrite !dom_insert_L in *.
  exists r1, r2, r3, r4. split; [|split].
  - repeat (apply NoDup_cons; split; [set_solver|]). apply NoDup_nil_2.
  - intros r Hr. apply not_elem_of_dom. set_solver.
  - reflexivity.
Qed.

(** C2, as the source has it: [__init__] gives the object a one-cell data
    tape [[0]] of length 1, a one-cell executable tape [[0]] of length 1, and a
    data stack and a jump stack of depth 0, each kept in a list [[0]] of its
    own.  The four lists are new objects, different from one another and from
    every list that existed before. *)
Theorem init_builds_tapes_and_stacks (s0 : state) :
  let s := after __init__ s0 in
  store s !! data_t s = Some [VInt 0] /\ _len_data_t s = 1 /\
  store s !! exec_t s = Some [VInt 0] /\ _len_exec_t s = 1 /\
  store s !! data_s s = Some [VInt 0] /\ _len_data_s s = 0 /\
  store s !! jump_s s = Some [VInt 0] /\ _len_jump_s s = 0 /\
  NoDup [data_t s; data_s s; exec_t s; jump_s s] /\
  (forall r, r ∈ [data_t s; data_s s; exec_t s; jump_s s] -> store s0 !! r = None).
Proof.
  destruct (init_unfold s0) as (r1 & r2 & r3 & r4 & Hnd & Hnew & Heq).
  unfold after. rewrite Heq. simpl.
  apply NoDup_cons in Hnd as [N1 Hnd]. apply NoDup_cons in Hnd as [N2 Hnd].
  apply NoDup_cons in Hnd as [N3 _].
  assert (r1 <> r2 /\ r1 <> r3 /\ r1 <> r4 /\ r2 <> r3 /\ r2 <> r4 /\ r3 <> r4)
    as (? & ? & ? & ? & ? & ?) by set_solver.
  repeat split; try done; try (by simplify_map_eq).
  repeat constructor; set_solver.
Qed.

(** C2, as stated, fails: the construction raises [TypeError], it assigns no
    register, and the executable tape it has built by then is [[0]], not the
    empty tape. *)
Lemma init_raises_and_exec_tape_not_empty :
  (__init__ blank).1 = Raise TypeError
  /\ deref (after __init__ blank) (exec_t (after __init__ blank)) = [VInt 0]
  /\ _len_exec_t (after __init__ blank) = 1
  /\ (forall s0 s, __init__ s0 <> (Ret tt, s)).
Proof.
  repeat split; try reflexivity.
  intros s0 s. destruct (init_unfold s0) as (? & ? & ? & ? & _ & _ & Heq).
  rewrite Heq. discriminate.
Qed.

(** ** The type checks of [write_data_t] and [push_data_s] *)

(** C5: for a value whose type is not [int], [write_data_t] and
    [push_data_s] raise the [ValueError] of their type check and leave the
    whole state, store and attributes, as it was; for a value of type [int]
    neither raises it. *)
Theorem non_int_rejected_state_kept (v : value) (s : state) :
  (is_int v = false ->
     write_data_t v s = (Raise ValueError, s)
     /\ push_data_s v s = (Raise ValueError, s))
  /\ (is_int v = true ->
        (write_data_t v s).1 <> Raise ValueError
        /\ (push_data_s v s).1 <> Raise ValueError).
Proof.
  split; intros Hv.
  - unfold write_data_t, push_data_s. rewrite Hv. simpl. done.
  - unfold write_data_t, push_data_s. rewrite Hv. unfold_monad. simpl.
    split; [|done].
    destruct (py_index _ _); simpl; done.
Qed.

Lemma non_int_rejected_state_kept_witness :
  (write_data_t (VStr "+") (constructed blank)
     = (Raise ValueError, constructed blank)
   /\ push_data_s (VBool true) (constructed blank)
     = (Raise ValueError, constructed blank))
  /\ (write_data_t (VInt 7) (constructed blank)).1 <> Raise ValueError.
Proof.
  split.
  - split.
    + apply (non_int_rejected_state_kept (VStr "+") (constructed blank)).
      reflexivity.
    + apply (non_int_rejected_state_kept (VBool true) (constructed blank)).
      reflexivity.
  - apply (non_int_rejected_state_kept (VInt 7) (constructed blank)).
    reflexivity.
Defined.

(** ** [load_data_tape] and [load_executable_tape] *)

(** C8: for every list object [r] of the store, with any content [l],
    [load_data_tape r] returns, and after it the data tape is that list,
    [_len_data_t] is its length and [data_p] is 0; [load_executable_tape r]
    returns, and after it the executable tape is that list, [_len_exec_t] is
    its length and [inst_p] is 0.  Neither changes the store. *)
Theorem load_replaces_tape_and_resets_pointer
    (s : state) (r : loc) (l : list value) :
  store s !! r = Some l ->
  (exists s',
      load_data_tape r s = (Ret tt, s')
      /\ deref s' (data_t s') = l
      /\ _len_data_t s' = Z.of_nat (length l)
      /\ data_p s' = 0
      /\ store s' = store s)
  /\ (exists s',
        load_executable_tape r s = (Ret tt, s')
        /\ deref s' (exec_t s') = l
        /\ _len_exec_t s' = Z.of_nat (length l)
        /\ inst_p s' = 0
        /\ store s' = store s).
Proof.
  intros Hr. split; eexists; (split; [run; reflexivity|]); simpl;
    unfold deref; simpl; rewrite lookup_total_alt, Hr; done.
Qed.

Lemma load_replaces_tape_and_resets_pointer_witness :
  exists s',
    load_data_tape 4%nat
        (after (new_list [VInt 3; VInt 1; VInt 4]) (constructed blank))
      = (Ret tt, s')
    /\ deref s' (data_t s') = [VInt 3; VInt 1; VInt 4]
    /\ _len_data_t s' = 3
    /\ data_p s' = 0
    /\ store s' =
         store (after (new_list [VInt 3; VInt 1; VInt 4]) (constructed blank)).
Proof.
  apply (load_replaces_tape_and_resets_pointer
           (after (new_list [VInt 3; VInt 1; VInt 4]) (constructed blank))
           4%nat [VInt 3; VInt 1; VInt 4]).
  reflexivity.
Defined.

(** ** The data stack *)

Lemma pop_data_s_empty (s : state) :
  _len_data_s s = 0 -> pop_data_s s = (Ret (VInt 0), s).
Proof. intros H. run. rewrite H. done. Qed.

(** C4: on a machine whose data stack is empty, that is with [_len_data_s]
    at 0, any number [n] of [pop_data_s] calls in a row return 0 each and
    leave the state as it was, the depth at 0 and the list untouched; on a
    machine whose stack is not empty, [pop_data_s] takes the last element
    off the list, returns it and lowers the depth by one. *)
Theorem pop_data_s_empty_and_nonempty (s : state) :
  (forall n : nat,
      _len_data_s s = 0 -> pops n s = (Ret (replicate n (VInt 0)), s))
  /\ (forall (l : list value) (v : value),
        0 < _len_data_s s -> store s !! data_s s = Some (l ++ [v]) ->
        pop_data_s s =
          (Ret v,
           set_store (<[data_s s := l]> (store s))
             (set__len_data_s (_len_data_s s - 1) s))).
Proof.
  split.
  - intros n H0. induction n as [|n IH]; [done|].
    simpl. unfold bind at 1. rewrite pop_data_s_empty by done.
    unfold bind at 1. rewrite IH. done.
  - intros l v Hpos Hl. run.
    destruct (Z.gtb_spec (_len_data_s s) 0) as [_|?]; [|lia].
    simpl. unfold deref. simpl. rewrite lookup_total_alt, Hl. simpl.
    rewrite last_snoc, removelast_last. done.
Qed.

Lemma pop_data_s_empty_and_nonempty_witness :
  pops 3 (constructed blank) = (Ret [VInt 0; VInt 0; VInt 0], constructed blank)
  /\ (pop_data_s (after (push_data_s (VInt 8)) (constructed blank))).1
     = Ret (VInt 8).
Proof.
  split.
  - apply (pop_data_s_empty_and_nonempty (constructed blank)). reflexivity.
  - destruct (pop_data_s_empty_and_nonempty
                (after (push_data_s (VInt 8)) (constructed blank)))
      as [_ Hpop].
    rewrite (Hpop [VInt 0] (VInt 8)); reflexivity.
Defined.

(** C9: on a machine whose depth counter is not negative, [push_data_s]
    of an integer followed by [pop_data_s] returns that integer and leaves
    the state exactly as it was before the push: the list of the data stack,
    [_len_data_s], and everything else. *)
Theorem push_pop_round_trip (s : state) (z : Z) (l : list value) :
  0 <= _len_data_s s ->
  store s !! data_s s = Some l ->
  (push_data_s (VInt z) ;;; pop_data_s) s = (Ret (VInt z), s).
Proof.
  intros Hn Hl. run.
  destruct (Z.gtb_spec (_len_data_s s + 1) 0) as [_|?]; [|lia].
  simpl. unfold deref. simpl.
  rewrite lookup_total_insert_eq, lookup_total_alt, Hl. simpl.
  rewrite last_snoc, removelast_last, insert_insert_eq, insert_id by done.
  replace (_len_data_s s + 1 - 1) with (_len_data_s s) by lia.
  by destruct s.
Qed.

Lemma push_pop_round_trip_witness :
  (push_data_s (VInt 5) ;;; pop_data_s) (constructed blank)
    = (Ret (VInt 5), constructed blank).
Proof.
  apply (push_pop_round_trip (constructed blank) 5 [VInt 0]).
  - simpl. lia.
  - reflexivity.
Defined.

(** ** [write_data_t] *)

Lemma write_data_t_int (s : state) (z : Z) :
  write_data_t (VInt z) s = setitem (data_t s) (data_p s) (VInt z) s.
Proof. reflexivity. Qed.

(** C6, as the source has it: [write_data_t] never grows the tape.  An
    integer write at an index from 0 up to the length minus one returns and
    replaces that one cell, the length staying as it is; at an index equal to
    the length or beyond it the write raises [IndexError] and leaves the
    state, the tape with it, as it was. *)
Theorem write_data_t_within_and_beyond (s : state) (z : Z) (l : list value) :
  store s !! data_t s = Some l ->
  (0 <= data_p s < Z.of_nat (length l) ->
     exists s',
       write_data_t (VInt z) s = (Ret tt, s')
       /\ deref s' (data_t s') = <[Z.to_nat (data_p s) := VInt z]> l
       /\ length (deref s' (data_t s')) = length l)
  /\ (Z.of_nat (length l) <= data_p s ->
        write_data_t (VInt z) s = (Raise IndexError, s)).
Proof.
  intros Hl. rewrite write_data_t_int. unfold setitem.
  rewrite (deref_lookup _ _ _ Hl). split.
  - intros Hp. rewrite py_index_within by done.
    eexists. split; [reflexivity|]. simpl. unfold deref. simpl.
    rewrite lookup_total_insert_eq. by rewrite length_insert.
  - intros Hp. by rewrite py_index_ge.
Qed.

Lemma write_data_t_within_and_beyond_witness :
  (exists s',
      write_data_t (VInt 7) (constructed blank) = (Ret tt, s')
      /\ deref s' (data_t s') = [VInt 7]
      /\ length (deref s' (data_t s')) = 1%nat)
  /\ write_data_t (VInt 7) (set_data_p 1 (constructed blank))
     = (Raise IndexError, set_data_p 1 (constructed blank)).
Proof.
  split.
  - assert (Hl : store (constructed blank) !! data_t (constructed blank)
                 = Some [VInt 0]) by (vm_compute; reflexivity).
    destruct (write_data_t_within_and_beyond (constructed blank) 7 _ Hl)
      as [Hin _].
    apply Hin. simpl. lia.
  - assert (Hl : store (set_data_p 1 (constructed blank))
                   !! data_t (set_data_p 1 (constructed blank))
                 = Some [VInt 0]) by (vm_compute; reflexivity).
    destruct (write_data_t_within_and_beyond
                (set_data_p 1 (constructed blank)) 7 _ Hl) as [_ Hout].
    apply Hout. simpl. lia.
Defined.

(** C6, as stated, fails: on the one-cell tape [[0]] a write of the integer
    5 at index 2, beyond the length, raises [IndexError], and the tape is
    still [[0]]: it has not grown. *)
Lemma write_beyond_length_raises :
  write_data_t (VInt 5) (set_data_p 2 (constructed blank))
    = (Raise IndexError, set_data_p 2 (constructed blank))
  /\ deref (set_data_p 2 (constructed blank))
           (data_t (set_data_p 2 (constructed blank))) = [VInt 0].
Proof. split; vm_compute; reflexivity. Qed.

(** C10, as the source has it: a [write_data_t] of an integer that returns
    has put it in the cell [data_p] of the list object that is the data tape;
    it changes no other cell of that list, no other list object of the store,
    and none of the twelve attributes.  The data stack, the jump stack and the
    executable tape are therefore as they were whenever they are list objects
    other than the data tape. *)
Theorem write_data_t_frame (s s' : state) (z : Z) :
  write_data_t (VInt z) s = (Ret tt, s') ->
  (exists k : nat,
      py_index (length (deref s (data_t s))) (data_p s) = Some k
      /\ deref s' (data_t s) !! k = Some (VInt z)
      /\ (forall j : nat, j <> k ->
            deref s' (data_t s) !! j = deref s (data_t s) !! j))
  /\ (forall r : loc, r <> data_t s -> deref s' r = deref s r)
  /\ (data_t s' = data_t s /\ data_s s' = data_s s
      /\ exec_t s' = exec_t s /\ jump_s s' = jump_s s)
  /\ (_len_data_t s' = _len_data_t s /\ _len_data_s s' = _len_data_s s
      /\ _len_exec_t s' = _len_exec_t s /\ _len_jump_s s' = _len_jump_s s)
  /\ (data_p s' = data_p s /\ inst_p s' = inst_p s
      /\ jump_p s' = jump_p s /\ auxi_r s' = auxi_r s).
Proof.
  rewrite write_data_t_int. unfold setitem.
  destruct (py_index _ _) as [k|] eqn:Hk; [|discriminate].
  intros [= <-]. simpl. split; [|split; [|done]].
  - exists k. split; [done|]. unfold deref at 1 3. simpl.
    rewrite lookup_total_insert_eq. split.
    + apply list_lookup_insert_eq. by apply py_index_lt in Hk.
    + intros j Hj. by apply list_lookup_insert_ne.
  - intros r Hr. unfold deref. simpl. by rewrite lookup_total_insert_ne.
Qed.

Lemma write_data_t_frame_witness :
  deref (after (write_data_t (VInt 7)) (constructed blank))
        (exec_t (constructed blank))
    = deref (constructed blank) (exec_t (constructed blank))
  /\ inst_p (after (write_data_t (VInt 7)) (constructed blank))
     = inst_p (constructed blank).
Proof.
  assert (Hw : write_data_t (VInt 7) (constructed blank)
               = (Ret tt, after (write_data_t (VInt 7)) (constructed blank)))
    by (vm_compute; reflexivity).
  destruct (write_data_t_frame _ _ _ Hw)
    as (_ & Hother & _ & _ & _ & Hinst & _).
  split; [apply Hother; vm_compute; discriminate | exact Hinst].
Defined.

(** C10, as stated, fails when one list object serves as both tapes: after
    [l = [4, 5]], [load_data_tape(l)] and [load_executable_tape(l)], a
    [write_data_t(9)] returns and the executable tape reads [[9, 5]]. *)
Lemma write_changes_shared_executable_tape :
  let s := do_calls [CNewList [VInt 4; VInt 5]; CLoadDataTape 4%nat;
                     CLoadExecutableTape 4%nat] (constructed blank) in
  (write_data_t (VInt 9) s).1 = Ret tt
  /\ deref s (exec_t s) = [VInt 4; VInt 5]
  /\ deref (after (write_data_t (VInt 9)) s)
           (exec_t (after (write_data_t (VInt 9)) s)) = [VInt 9; VInt 5].
Proof. repeat split; vm_compute; reflexivity. Qed.

(** ** The depth counters *)

Lemma deref_insert (s : state) (r r' : loc) (l : list value) :
  deref (set_store (<[r := l]> (store s)) s) r'
  = if decide (r = r') then l else deref s r'.
Proof.
  unfold deref. simpl. destruct (decide (r = r')) as [->|Hne].
  - by rewrite lookup_total_insert_eq.
  - by rewrite lookup_total_insert_ne.
Qed.

Lemma deref_nonempty_in_store (s : state) (r : loc) :
  deref s r <> [] -> is_Some (store s !! r).
Proof.
  unfold deref. rewrite lookup_total_alt.
  destruct (store s !! r); [eauto | done].
Qed.

Lemma constructed_stacks_kept (s0 : state) : stacks_kept (constructed s0).
Proof.
  destruct (init_unfold s0) as (r1 & r2 & r3 & r4 & Hnd & _ & Heq).
  unfold stacks_kept, constructed, after. rewrite Heq.
  unfold deref. simpl.
  apply NoDup_cons in Hnd as [N1 Hnd]. apply NoDup_cons in Hnd as [N2 Hnd].
  apply NoDup_cons in Hnd as [N3 _].
  assert (r2 <> r3 /\ r2 <> r4) as [? ?] by set_solver.
  rewrite lookup_total_insert_eq.
  rewrite lookup_total_insert_ne, lookup_total_insert_ne,
    lookup_total_insert_eq by done.
  done.
Qed.

Lemma read_data_t_state (s : state) : after read_data_t s = s.
Proof.
  run. destruct (_len_data_t s >=? data_p s); [|done].
  destruct (py_index _ _); [|done]. by destruct (_ !! _).
Qed.

Lemma do_call_stacks_kept (c : call) (s : state) :
  stacks_kept s -> stacks_kept (do_call c s).
Proof.
  intros (Hd & Hj & Hdn & Hjn & Hne).
  assert (Hin : forall r : loc, store s !! r = None ->
            r <> data_s s /\ r <> jump_s s).
  { intros r Hr. split; intros ->.
    - destruct (deref_nonempty_in_store s (data_s s)) as [? ?]; [|congruence].
      intros E. rewrite E in Hd. simpl in Hd. lia.
    - destruct (deref_nonempty_in_store s (jump_s s)) as [? ?]; [|congruence].
      intros E. rewrite E in Hj. simpl in Hj. lia. }
  destruct c as [l|r|r|v| |v| ]; simpl.
  - (* the caller builds a list *)
    unfold after, new_list. simpl.
    destruct (Hin (fresh (dom (store s)))) as [F1 F2];
      [apply not_elem_of_dom, is_fresh|].
    unfold stacks_kept. simpl. rewrite !deref_insert.
    repeat case_decide; try done.
  - run. done.
  - run. done.
  - (* write_data_t *)
    unfold after, write_data_t. destruct (is_int v); simpl; [|done].
    unfold_monad. simpl. destruct (py_index _ _) as [k|]; simpl; [|done].
    unfold stacks_kept. simpl. rewrite !deref_insert.
    repeat case_decide; rewrite ?length_insert;
      repeat split; first [done | congruence].
  - rewrite read_data_t_state. done.
  - (* push_data_s *)
    unfold after, push_data_s. destruct (is_int v); simpl; [|done].
    unfold_monad. simpl. unfold stacks_kept, deref in *. simpl.
    rewrite lookup_total_insert_eq, lookup_total_insert_ne by done.
    rewrite length_app. simpl. repeat split; try done; lia.
  - (* pop_data_s *)
    run. destruct (Z.gtb_spec (_len_data_s s) 0) as [Hpos|_]; simpl; [|done].
    destruct (deref s (data_s s)) as [|c l] eqn:El using rev_ind.
    { simpl in Hd. lia. }
    unfold stacks_kept, deref in *. simpl. rewrite El, last_snoc. simpl.
    rewrite removelast_last.
    rewrite lookup_total_insert_eq, lookup_total_insert_ne by done.
    rewrite length_app in Hd. simpl in Hd. repeat split; try done; lia.
Qed.

Lemma do_calls_stacks_kept (cs : list call) (s : state) :
  stacks_kept s -> stacks_kept (do_calls cs s).
Proof.
  revert s. induction cs as [|c cs IH]; intros s Hs; [done|].
  simpl. apply IH. by apply do_call_stacks_kept.
Qed.

(** C3, as the source has it: after the construction and after any
    sequence of calls of the six methods, by a caller who may build lists of
    its own in between, each depth counter is one less than the length of its
    list, [len(data_s) = _len_data_s + 1] and [len(jump_s) = _len_jump_s + 1]:
    the list of a stack keeps the cell 0 it was created with below the values
    pushed; and neither counter is negative. *)
Theorem depth_counter_is_length_minus_one (s0 : state) (cs : list call) :
  let s := do_calls cs (constructed s0) in
  Z.of_nat (length (deref s (data_s s))) = _len_data_s s + 1
  /\ Z.of_nat (length (deref s (jump_s s))) = _len_jump_s s + 1
  /\ 0 <= _len_data_s s
  /\ 0 <= _len_jump_s s.
Proof.
  destruct (do_calls_stacks_kept cs (constructed s0) (constructed_stacks_kept s0))
    as (? & ? & ? & ? & _).
  done.
Qed.

(** C3, as stated, fails: right after the construction the list [data_s] is
    [[0]], of length 1, with [_len_data_s] at 0, and likewise [jump_s]; after
    a push of 7 the list is [[0, 7]] and the counter is 1. *)
Lemma depth_counter_differs_from_length :
  deref (constructed blank) (data_s (constructed blank)) = [VInt 0]
  /\ _len_data_s (constructed blank) = 0
  /\ deref (constructed blank) (jump_s (constructed blank)) = [VInt 0]
  /\ _len_jump_s (constructed blank) = 0
  /\ deref (do_calls [CPushDataS (VInt 7)] (constructed blank))
           (data_s (do_calls [CPushDataS (VInt 7)] (constructed blank)))
     = [VInt 0; VInt 7]
  /\ _len_data_s (do_calls [CPushDataS (VInt 7)] (constructed blank)) = 1.
Proof. repeat split; vm_compute; reflexivity. Qed.

(** ** Loop entry with the cell at 0 *)

Section LoopEnterProperties.

Variable decode : Z -> option instruction.

Lemma loop_exit_not_enter (c : value) :
  is_loop_exit decode c = true -> is_loop_enter decode c = false.
Proof.
  unfold is_loop_exit, is_loop_enter. destruct c as [z| | |]; try done.
  by destruct (decode z) as [[]|].
Qed.

(** The scan crosses a balanced stretch with its counter unchanged. *)
Lemma scan_forward_balanced (body : list value) :
  balanced decode body ->
  forall (rest : list value) (pos counter : Z),
    0 < counter ->
    scan_forward decode (body ++ rest) pos counter
    = scan_forward decode rest (pos + Z.of_nat (length body)) counter.
Proof.
  induction 1 as [|c l Hen Hex Hl IHl|e body x l He Hx Hbody IHbody Hl IHl];
    intros rest pos counter Hpos.
  - simpl. f_equal. lia.
  - simpl. rewrite Hen, Hex, IHl by done. f_equal. lia.
  - change ((e :: body ++ x :: l) ++ rest)
      with (e :: (body ++ x :: l) ++ rest).
    rewrite <- app_assoc. simpl. rewrite He, IHbody by lia.
    simpl. rewrite (loop_exit_not_enter x Hx), Hx.
    destruct (Z.eqb_spec (counter + 1 - 1) 0) as [?|_]; [lia|].
    replace (counter + 1 - 1) with counter by lia.
    rewrite IHl by done. f_equal. rewrite !length_app. simpl. lia.
Qed.

(** From just after a loop-enter, with the counter at 1, the scan stops on
    the loop-exit that closes it. *)
Lemma scan_forward_matching (body post : list value) (x : value) (pos : Z) :
  balanced decode body -> is_loop_exit decode x = true ->
  scan_forward decode (body ++ x :: post) pos 1
  = Some (pos + Z.of_nat (length body)).
Proof.
  intros Hbody Hx. rewrite scan_forward_balanced by (done || lia).
  simpl. by rewrite (loop_exit_not_enter x Hx), Hx.
Qed.

Lemma drop_past (pre rest : list value) (e : value) :
  drop (Z.to_nat (Z.of_nat (length pre) + 1)) (pre ++ e :: rest) = rest.
Proof.
  replace (Z.to_nat (Z.of_nat (length pre) + 1)) with (S (length pre)) by lia.
  induction pre as [|c pre IH]; [done | exact IH].
Qed.

(** C7: on an executable tape [pre ++ e :: body ++ x :: post], where [e]
    is the loop-enter at [inst_p], [body] is balanced, so holds loops nested
    to any depth, and [x] is a loop-exit, executing [e] while [read_data_t]
    gives 0 for the cell at [data_p] continues with [inst_p] just after [x],
    and changes nothing else in the machine: no instruction of the body has
    run. *)
Theorem loop_enter_zero_skips_body
    (s : state) (pre body post : list value) (e x : value) :
  deref s (exec_t s) = pre ++ e :: body ++ x :: post ->
  inst_p s = Z.of_nat (length pre) ->
  is_loop_enter decode e = true ->
  is_loop_exit decode x = true ->
  balanced decode body ->
  (read_data_t s).1 = Ret (VInt 0) ->
  loop_enter decode s
  = (Ret Continue, set_inst_p (Z.of_nat (length (pre ++ e :: body ++ [x]))) s).
Proof.
  intros Htape Hip _ Hx Hbody Hzero. unfold loop_enter.
  pose proof (read_data_t_state s) as Hstate. unfold after in Hstate.
  destruct (read_data_t s) as [o s'] eqn:Hread. simpl in Hzero, Hstate.
  subst o s'. unfold bind at 1. rewrite Hread. simpl.
  unfold_monad. simpl. rewrite Hip, Htape.
  rewrite drop_past, scan_forward_matching by done.
  do 2 f_equal. rewrite !length_app. simpl. rewrite length_app. simpl. lia.
Qed.

End LoopEnterProperties.

Lemma loop_enter_zero_skips_body_witness :
  let s := set_inst_p 1
             (do_calls [CNewList [VInt 3; VInt 4; VInt 3; VInt 4; VInt 2; VInt 5;
                                  VInt 3; VInt 5; VInt 1];
                        CLoadExecutableTape 4%nat] (constructed blank)) in
  loop_enter sbrain_decode s = (Ret Continue, set_inst_p 8 s).
Proof.
  intros s.
  apply (loop_enter_zero_skips_body sbrain_decode s
           [VInt 3] [VInt 3; VInt 4; VInt 2; VInt 5; VInt 3] [VInt 1]
           (VInt 4) (VInt 5)).
  - vm_compute. reflexivity.
  - reflexivity.
  - reflexivity.
  - reflexivity.
  - apply balanced_other; [reflexivity| reflexivity|].
    apply (balanced_loop sbrain_decode (VInt 4) [VInt 2] (VInt 5) [VInt 3]);
      [reflexivity | reflexivity | |].
    + apply balanced_other; [reflexivity | reflexivity | apply balanced_nil].
    + apply balanced_other; [reflexivity | reflexivity | apply balanced_nil].
  - vm_compute. reflexivity.
Defined.

(** * Further properties of the class *)

(** ** The constructor *)

(** X1: every call of the constructor raises [TypeError], whatever the
    object held before, and it leaves the four registers unassigned: they
    are what they were before the call. *)
Theorem init_always_raises (s0 : state) :
  (__init__ s0).1 = Raise TypeError
  /\ data_p (after __init__ s0) = data_p s0
  /\ inst_p (after __init__ s0) = inst_p s0
  /\ jump_p (after __init__ s0) = jump_p s0
  /\ auxi_r (after __init__ s0) = auxi_r s0.
Proof.
  destruct (init_unfold s0) as (r1 & r2 & r3 & r4 & _ & _ & Heq).
  unfold after. rewrite Heq. done.
Qed.

(** ** Reading and writing the cell at [data_p] *)

Lemma deref_insert_eq (s : state) (r : loc) (l : list value) :
  deref (set_store (<[r := l]> (store s)) s) r = l.
Proof. rewrite deref_insert. by case_decide. Qed.

Lemma setitem_success (r : loc) (i : Z) (v : value) (s s' : state) :
  setitem r i v s = (Ret tt, s') ->
  exists k : nat,
    py_index (length (deref s r)) i = Some k
    /\ (k < length (deref s r))%nat
    /\ s' = set_store (<[r := <[k := v]> (deref s r)]> (store s)) s.
Proof.
  unfold setitem. destruct (py_index _ _) as [k|] eqn:Hk; [|discriminate].
  intros [= <-]. exists k. repeat split. by apply py_index_lt in Hk.
Qed.

(** X2: a write that returns can be read back: when [write_data_t] of an
    integer returns and [data_p] is not above [_len_data_t], the next
    [read_data_t] returns that integer and changes nothing. *)
Theorem write_then_read (s s' : state) (z : Z) :
  write_data_t (VInt z) s = (Ret tt, s') ->
  data_p s <= _len_data_t s ->
  read_data_t s' = (Ret (VInt z), s').
Proof.
  rewrite write_data_t_int. intros Hw Hp.
  apply setitem_success in Hw as (k & Hk & Hlt & ->).
  run. destruct (Z.geb_spec (_len_data_t s) (data_p s)) as [_|?]; [|lia].
  rewrite deref_insert_eq, length_insert, Hk.
  by rewrite list_lookup_insert_eq.
Qed.

Lemma write_then_read_witness :
  read_data_t (after (write_data_t (VInt 7)) (constructed blank))
  = (Ret (VInt 7), after (write_data_t (VInt 7)) (constructed blank)).
Proof.
  apply (write_then_read (constructed blank) _ 7).
  - vm_compute. reflexivity.
  - simpl. lia.
Defined.

(** X3: a negative [data_p] counts from the end of the tape, as Python
    indexes do.  With [data_p = k - len] for a cell [k] of the tape, and
    [_len_data_t] not negative, [read_data_t] returns cell [k] and
    [write_data_t] of an integer replaces cell [k]; below [-len] both raise
    [IndexError] and change nothing. *)
Theorem negative_data_p_counts_from_end
    (s : state) (l : list value) (z : Z) :
  store s !! data_t s = Some l ->
  0 <= _len_data_t s ->
  (forall (k : nat) (v : value),
      l !! k = Some v ->
      data_p s = Z.of_nat k - Z.of_nat (length l) ->
      read_data_t s = (Ret v, s)
      /\ write_data_t (VInt z) s
         = (Ret tt, set_store (<[data_t s := <[k := VInt z]> l]> (store s)) s))
  /\ (data_p s < - Z.of_nat (length l) ->
        read_data_t s = (Raise IndexError, s)
        /\ write_data_t (VInt z) s = (Raise IndexError, s)).
Proof.
  intros Hl Hn. pose proof (deref_lookup _ _ _ Hl) as Hd. split.
  - intros k v Hk Hp. pose proof (lookup_lt_Some _ _ _ Hk) as Hlt.
    assert (Hi : py_index (length l) (data_p s) = Some k).
    { unfold py_index.
      destruct (decide (0 <= data_p s < Z.of_nat (length l))); [lia|].
      destruct (decide (- Z.of_nat (length l) <= data_p s < 0)); [|lia].
      f_equal. lia. }
    split.
    + run. destruct (Z.geb_spec (_len_data_t s) (data_p s)) as [_|?]; [|lia].
      by rewrite Hd, Hi, Hk.
    + rewrite write_data_t_int. unfold setitem. by rewrite Hd, Hi.
  - intros Hp.
    assert (Hi : py_index (length l) (data_p s) = None).
    { unfold py_index.
      destruct (decide (0 <= data_p s < Z.of_nat (length l))); [lia|].
      destruct (decide (- Z.of_nat (length l) <= data_p s < 0)); [lia|done]. }
    split.
    + run. destruct (Z.geb_spec (_len_data_t s) (data_p s)) as [_|?]; [|lia].
      by rewrite Hd, Hi.
    + rewrite write_data_t_int. unfold setitem. by rewrite Hd, Hi.
Qed.

Lemma negative_data_p_counts_from_end_witness :
  let s := set_data_p (-1)
             (do_calls [CNewList [VInt 3; VInt 1; VInt 4]; CLoadDataTape 4%nat]
                       (constructed blank)) in
  read_data_t s = (Ret (VInt 4), s).
Proof.
  intros s.
  assert (Hl : store s !! data_t s = Some [VInt 3; VInt 1; VInt 4])
    by (vm_compute; reflexivity).
  assert (Hn : 0 <= _len_data_t s) by (vm_compute; discriminate).
  destruct (negative_data_p_counts_from_end s _ 0 Hl Hn) as [Hin _].
  destruct (Hin 2%nat (VInt 4)) as [Hr _];
    [vm_compute; reflexivity | vm_compute; reflexivity | exact Hr].
Defined.


(** X5: the last write wins: after a [write_data_t] of an integer that
    returned, a second one gives the result and the state that it would have
    given without the first. *)
Theorem last_write_wins (s s1 : state) (z1 z2 : Z) :
  write_data_t (VInt z1) s = (Ret tt, s1) ->
  write_data_t (VInt z2) s1 = write_data_t (VInt z2) s.
Proof.
  rewrite !write_data_t_int. intros Hw.
  apply setitem_success in Hw as (k & Hk & Hlt & ->).
  unfold setitem. simpl. rewrite deref_insert_eq, length_insert, Hk.
  unfold set_store. simpl.
  by rewrite insert_insert_eq, list_insert_insert_eq.
Qed.

Lemma last_write_wins_witness :
  write_data_t (VInt 2) (after (write_data_t (VInt 1)) (constructed blank))
  = write_data_t (VInt 2) (constructed blank).
Proof.
  apply (last_write_wins (constructed blank) _ 1 2).
  vm_compute. reflexivity.
Defined.

Lemma read_first_cell (s : state) :
  data_p s = 0 -> 0 <= _len_data_t s ->
  read_data_t s
  = (match deref s (data_t s) with [] => Raise IndexError | c :: _ => Ret c end,
     s).
Proof.
  intros Hp Hn. run. rewrite Hp.
  destruct (Z.geb_spec (_len_data_t s) 0) as [_|?]; [|lia].
  by destruct (deref s (data_t s)) as [|c l].
Qed.

Lemma write_first_cell (s : state) (z : Z) :
  data_p s = 0 ->
  write_data_t (VInt z) s
  = match deref s (data_t s) with
    | [] => (Raise IndexError, s)
    | _ :: l' => (Ret tt, set_store (<[data_t s := VInt z :: l']> (store s)) s)
    end.
Proof.
  intros Hp. rewrite write_data_t_int. unfold setitem. rewrite Hp.
  by destruct (deref s (data_t s)) as [|c l].
Qed.

Lemma load_data_tape_eq (r : loc) (s : state) :
  load_data_tape r s
  = (Ret tt,
     set_data_p 0
       (set__len_data_t (Z.of_nat (length (deref s r))) (set_data_t r s))).
Proof. reflexivity. Qed.

(** X6: a load followed by an access is an access of the first cell of the
    loaded list.  On an empty list [read_data_t] and [write_data_t] both
    raise [IndexError]; otherwise the read returns the first cell, whatever
    its type, since the loads check no cell, and the write of an integer
    replaces the first cell of the caller's list. *)
Theorem load_then_access_first_cell
    (s : state) (r : loc) (l : list value) (z : Z) :
  store s !! r = Some l ->
  (load_data_tape r ;;; read_data_t) s
  = (match l with [] => Raise IndexError | c :: _ => Ret c end,
     after (load_data_tape r) s)
  /\ (load_data_tape r ;;; write_data_t (VInt z)) s
     = match l with
       | [] => (Raise IndexError, after (load_data_tape r) s)
       | _ :: l' =>
           (Ret tt,
            set_store (<[r := VInt z :: l']> (store s))
                      (after (load_data_tape r) s))
       end.
Proof.
  intros Hr. pose proof (deref_lookup _ _ _ Hr) as Hd.
  unfold after, bind. rewrite load_data_tape_eq. simpl.
  set (s1 := set_data_p 0 (set__len_data_t _ (set_data_t r s))).
  assert (Hd1 : deref s1 (data_t s1) = l) by exact Hd.
  assert (Hp1 : data_p s1 = 0) by reflexivity.
  assert (Hn1 : 0 <= _len_data_t s1) by (simpl; lia).
  split.
  - rewrite read_first_cell, Hd1 by done. done.
  - rewrite write_first_cell, Hd1 by done. by destruct l.
Qed.

Lemma load_then_access_first_cell_witness :
  let s := after (new_list [VStr "+"; VInt 1]) (constructed blank) in
  (load_data_tape 4%nat ;;; read_data_t) s
  = (Ret (VStr "+"), after (load_data_tape 4%nat) s).
Proof.
  intros s.
  assert (Hl : store s !! 4%nat = Some [VStr "+"; VInt 1])
    by (vm_compute; reflexivity).
  destruct (load_then_access_first_cell s 4%nat _ 0 Hl) as [Hread _].
  exact Hread.
Defined.

(** ** The data stack, several values deep *)

Lemma push_data_s_int (z : Z) (s : state) :
  push_data_s (VInt z) s
  = (Ret tt,
     set__len_data_s (_len_data_s s + 1)
       (set_store (<[data_s s := deref s (data_s s) ++ [VInt z]]> (store s)) s)).
Proof. reflexivity. Qed.

Lemma pop_after_push (s : state) (z : Z) (l : list value) :
  0 <= _len_data_s s ->
  store s !! data_s s = Some l ->
  pop_data_s (after (push_data_s (VInt z)) s) = (Ret (VInt z), s).
Proof.
  intros Hn Hl. unfold after. rewrite push_data_s_int. run.
  destruct (Z.gtb_spec (_len_data_s s + 1) 0) as [_|?]; [|lia].
  simpl. unfold deref. simpl.
  rewrite lookup_total_insert_eq, lookup_total_alt, Hl. simpl.
  rewrite last_snoc, removelast_last, insert_insert_eq, insert_id by done.
  replace (_len_data_s s + 1 - 1) with (_len_data_s s) by lia.
  by destruct s.
Qed.

Lemma bind_assoc {A B C} (m : M A) (f : A -> M B) (g : B -> M C) (s : state) :
  bind (bind m f) g s = bind m (fun a => bind (f a) g) s.
Proof. unfold bind. by destruct (m s) as [[a|e] s']. Qed.

(** Pushing [zs] and popping once more than was pushed: the pushed values
    come back last in, first out, and the pops beyond them are pops of the
    machine as it was before the pushes. *)
Lemma pushes_then_pops (zs : list Z) :
  forall (s : state) (l : list value) (n : nat),
    0 <= _len_data_s s ->
    store s !! data_s s = Some l ->
    (pushes zs ;;; pops (length zs + n)) s
    = (vs <- pops n ;; ret ((VInt <$> rev zs) ++ vs)) s.
Proof.
  induction zs as [|z zs IH]; intros s l n Hn Hl.
  - simpl. unfold bind, ret. by destruct (pops n s) as [[vs|e] s'].
  - change (pushes (z :: zs)) with (push_data_s (VInt z) ;;; pushes zs).
    replace (length (z :: zs) + n)%nat with (length zs + S n)%nat
      by (simpl; lia).
    rewrite bind_assoc. unfold bind at 1.
    pose proof (pop_after_push s z l Hn Hl) as Hpop. unfold after in Hpop.
    rewrite push_data_s_int in Hpop |- *. simpl in Hpop.
    rewrite (IH _ (l ++ [VInt z]) (S n)); simpl; [|lia|].
    + unfold bind at 1 2. rewrite Hpop.
      unfold bind, ret. destruct (pops n s) as [[vs|e] s']; [|done].
      rewrite fmap_app, <- app_assoc. done.
    + by rewrite lookup_insert_eq, (deref_lookup _ _ _ Hl).
Qed.

(** X7: the data stack is last in, first out: on a machine whose depth
    counter is not negative, pushing the integers [zs] and then popping as
    many times returns them in reverse order and leaves the machine exactly
    as it was before the first push. *)
Theorem pushes_pops_reverse (zs : list Z) (s : state) (l : list value) :
  0 <= _len_data_s s ->
  store s !! data_s s = Some l ->
  (pushes zs ;;; pops (length zs)) s = (Ret (VInt <$> rev zs), s).
Proof.
  intros Hn Hl. replace (length zs) with (length zs + 0)%nat by lia.
  rewrite (pushes_then_pops zs s l 0 Hn Hl). simpl. unfold bind, ret.
  by rewrite app_nil_r.
Qed.

Lemma pushes_pops_reverse_witness :
  (pushes [1; 2; 3] ;;; pops 3) (constructed blank)
  = (Ret [VInt 3; VInt 2; VInt 1], constructed blank).
Proof.
  apply (pushes_pops_reverse [1; 2; 3] (constructed blank) [VInt 0]).
  - vm_compute. discriminate.
  - vm_compute. reflexivity.
Defined.

Lemma pops_empty (n : nat) (s : state) :
  _len_data_s s = 0 -> pops n s = (Ret (replicate n (VInt 0)), s).
Proof.
  intros H0. induction n as [|n IH]; [done|].
  simpl. unfold bind at 1. rewrite pop_data_s_empty by done.
  unfold bind at 1. rewrite IH. done.
Qed.

(** X8: popping more than was pushed: on a machine whose data stack is at
    depth 0, pushing the integers [zs] and then popping [n] times more than
    that returns [zs] in reverse order followed by [n] zeros, and leaves the
    machine as it was: the cell at the bottom of the list is never popped. *)
Theorem pops_beyond_pushes (zs : list Z) (n : nat) (s : state) (l : list value) :
  _len_data_s s = 0 ->
  store s !! data_s s = Some l ->
  (pushes zs ;;; pops (length zs + n)) s
  = (Ret ((VInt <$> rev zs) ++ replicate n (VInt 0)), s).
Proof.
  intros H0 Hl. rewrite (pushes_then_pops zs s l n) by (done || lia).
  unfold bind. rewrite pops_empty by done. done.
Qed.

Lemma pops_beyond_pushes_witness :
  (pushes [1; 2] ;;; pops 4) (constructed blank)
  = (Ret [VInt 2; VInt 1; VInt 0; VInt 0], constructed blank).
Proof.
  apply (pops_beyond_pushes [1; 2] 2 (constructed blank) [VInt 0]).
  - vm_compute. reflexivity.
  - vm_compute. reflexivity.
Defined.

(** X9: [push_data_s] and [pop_data_s] touch the data stack only: whatever
    the value and the outcome, every list object other than [data_s] is as
    it was, and so is every attribute other than [_len_data_s]. *)
Theorem stack_methods_frame (s s' : state) (v : value) :
  s' = after (push_data_s v) s \/ s' = after pop_data_s s ->
  (forall r : loc, r <> data_s s -> deref s' r = deref s r)
  /\ (data_t s' = data_t s /\ data_s s' = data_s s
      /\ exec_t s' = exec_t s /\ jump_s s' = jump_s s)
  /\ (_len_data_t s' = _len_data_t s
      /\ _len_exec_t s' = _len_exec_t s /\ _len_jump_s s' = _len_jump_s s)
  /\ (data_p s' = data_p s /\ inst_p s' = inst_p s
      /\ jump_p s' = jump_p s /\ auxi_r s' = auxi_r s).
Proof.
  intros [-> | ->].
  - unfold after, push_data_s. destruct (is_int v); simpl; [|done].
    unfold_monad. simpl. split; [|done].
    intros r Hr. unfold deref. simpl. by rewrite lookup_total_insert_ne.
  - run. destruct (_len_data_s s >? 0); simpl; [|done].
    destruct (last _); simpl; [|done]. split; [|done].
    intros r Hr. unfold deref. simpl. by rewrite lookup_total_insert_ne.
Qed.

Lemma stack_methods_frame_witness :
  deref (after (push_data_s (VInt 7)) (constructed blank))
        (data_t (constructed blank))
  = deref (constructed blank) (data_t (constructed blank)).
Proof.
  destruct (stack_methods_frame (constructed blank)
              (after (push_data_s (VInt 7)) (constructed blank)) (VInt 7)
              (or_introl eq_refl)) as [Hother _].
  apply Hother. vm_compute. discriminate.
Defined.

(** ** What holds of every machine that the methods can produce *)

Lemma constructed_at_rest (s0 : state) :
  at_rest (constructed s0) (constructed s0).
Proof.
  destruct (init_unfold s0) as (r1 & r2 & r3 & r4 & _ & _ & Heq).
  unfold at_rest, constructed, after. rewrite Heq. simpl.
  repeat split; lia.
Qed.

Lemma do_call_at_rest (s0 s : state) (c : call) :
  at_rest s0 s -> at_rest s0 (do_call c s).
Proof.
  intros (Hjp & Har & Hjn & Hds & Hjs & Hdt).
  destruct c as [l|r|r|v| |v| ]; simpl.
  - done.
  - run. unfold at_rest. simpl. repeat split; try done; lia.
  - run. unfold at_rest. simpl. repeat split; try done; lia.
  - unfold after, write_data_t. destruct (is_int v); simpl; [|done].
    unfold_monad. simpl. destruct (py_index _ _); simpl; done.
  - rewrite read_data_t_state. done.
  - unfold after, push_data_s. destruct (is_int v); simpl; done.
  - run. destruct (_len_data_s s >? 0); simpl; [|done].
    destruct (last _); simpl; done.
Qed.

Lemma do_calls_at_rest (s0 : state) (cs : list call) (s : state) :
  at_rest s0 s -> at_rest s0 (do_calls cs s).
Proof.
  revert s. induction cs as [|c cs IH]; intros s Hs; [done|].
  simpl. apply IH. by apply do_call_at_rest.
Qed.

(** [data_p] is assigned by [load_data_tape] alone, and [inst_p] by
    [load_executable_tape] alone. *)
Lemma do_call_pointers (c : call) (s : state) :
  data_p (do_call c s) = (if loads_data_tape c then 0 else data_p s)
  /\ inst_p (do_call c s) = (if loads_executable_tape c then 0 else inst_p s).
Proof.
  destruct c as [l|r|r|v| |v| ]; simpl.
  - done.
  - done.
  - done.
  - unfold after, write_data_t. destruct (is_int v); simpl; [|done].
    unfold_monad. simpl. destruct (py_index _ _); simpl; done.
  - rewrite read_data_t_state. done.
  - unfold after, push_data_s. destruct (is_int v); simpl; done.
  - run. destruct (_len_data_s s >? 0); simpl; [|done].
    destruct (last _); simpl; done.
Qed.

Lemma do_calls_pointers (cs : list call) (s : state) :
  data_p (do_calls cs s)
  = (if existsb loads_data_tape cs then 0 else data_p s)
  /\ inst_p (do_calls cs s)
     = (if existsb loads_executable_tape cs then 0 else inst_p s).
Proof.
  revert s. induction cs as [|c cs IH]; intros s; [done|].
  simpl. destruct (IH (do_call c s)) as [Hd Hi].
  destruct (do_call_pointers c s) as [Hdc Hic].
  rewrite Hd, Hi, Hdc, Hic.
  destruct (loads_data_tape c), (loads_executable_tape c),
    (existsb loads_data_tape cs), (existsb loads_executable_tape cs); done.
Qed.

(** X10: no method moves a pointer or uses the jump stack.  After the
    construction and any sequence of calls, [jump_p] and [auxi_r] are as
    the constructor left them, not assigned; [data_p] is 0 if the sequence
    has a [load_data_tape] and is not assigned otherwise, and likewise
    [inst_p] with [load_executable_tape]; the depth of the jump stack is 0;
    [data_s] and [jump_s] are still the two list objects that the constructor
    made. *)
Theorem registers_only_reset_by_loads (s0 : state) (cs : list call) :
  let s := do_calls cs (constructed s0) in
  data_p s = (if existsb loads_data_tape cs then 0 else data_p s0)
  /\ inst_p s = (if existsb loads_executable_tape cs then 0 else inst_p s0)
  /\ jump_p s = jump_p s0 /\ auxi_r s = auxi_r s0
  /\ _len_jump_s s = 0
  /\ data_s s = data_s (constructed s0)
  /\ jump_s s = jump_s (constructed s0).
Proof.
  destruct (do_calls_at_rest _ cs _ (constructed_at_rest s0))
    as (Hjp & Har & Hjn & Hds & Hjs & _).
  destruct (do_calls_pointers cs (constructed s0)) as [Hdp Hip].
  assert (data_p (constructed s0) = data_p s0
          /\ inst_p (constructed s0) = inst_p s0
          /\ jump_p (constructed s0) = jump_p s0
          /\ auxi_r (constructed s0) = auxi_r s0
          /\ _len_jump_s (constructed s0) = 0) as (Edp & Eip & Ejp & Ear & Ejn).
  { destruct (init_unfold s0) as (r1 & r2 & r3 & r4 & _ & _ & Heq).
    unfold constructed, after. rewrite Heq. done. }
  cbv zeta. rewrite Hdp, Hip, Hjp, Har, Hjn, Edp, Eip, Ejp, Ear, Ejn. done.
Qed.

(** X11: once a data tape has been loaded, nothing moves [data_p] off its
    first cell: after the construction and any sequence of calls that has a
    [load_data_tape], [read_data_t] returns the first cell of the data tape,
    and raises [IndexError] when the tape is the empty list; it changes
    nothing. *)
Theorem read_data_t_reads_first_cell (s0 : state) (cs : list call) :
  existsb loads_data_tape cs = true ->
  let s := do_calls cs (constructed s0) in
  read_data_t s
  = (match deref s (data_t s) with
     | [] => Raise IndexError
     | c :: _ => Ret c
     end, s).
Proof.
  intros Hload.
  destruct (do_calls_at_rest _ cs _ (constructed_at_rest s0))
    as (_ & _ & _ & _ & _ & Hn).
  destruct (do_calls_pointers cs (constructed s0)) as [Hdp _].
  rewrite Hload in Hdp. cbv zeta. by apply read_first_cell.
Qed.

Lemma read_data_t_reads_first_cell_witness :
  let s := do_calls [CNewList [VInt 3; VInt 1]; CLoadDataTape 4%nat;
                     CPushDataS (VInt 5); CLoadExecutableTape 4%nat]
                    (constructed (set_data_p 7 blank)) in
  read_data_t s = (Ret (VInt 3), s).
Proof.
  intros s. subst s.
  rewrite (read_data_t_reads_first_cell (set_data_p 7 blank)
             [CNewList [VInt 3; VInt 1]; CLoadDataTape 4%nat;
              CPushDataS (VInt 5); CLoadExecutableTape 4%nat] eq_refl).
  vm_compute. reflexivity.
Defined.

Lemma constructed_ints_only (s0 : state) :
  ints_only (deref (constructed s0) (data_s (constructed s0))).
Proof.
  destruct (init_unfold s0) as (r1 & r2 & r3 & r4 & Hnd & _ & Heq).
  unfold constructed, after. rewrite Heq. unfold deref. simpl.
  apply NoDup_cons in Hnd as [N1 Hnd]. apply NoDup_cons in Hnd as [N2 Hnd].
  assert (r2 <> r3 /\ r2 <> r4) as [? ?] by set_solver.
  rewrite lookup_total_insert_ne, lookup_total_insert_ne,
    lookup_total_insert_eq by done.
  by repeat constructor.
Qed.

Lemma do_call_ints_only (c : call) (s : state) :
  stacks_kept s ->
  ints_only (deref s (data_s s)) ->
  ints_only (deref (do_call c s) (data_s (do_call c s))).
Proof.
  intros (Hd & _ & Hdn & _ & _) Hi.
  destruct c as [l|r|r|v| |v| ]; simpl.
  - unfold after, new_list. simpl. rewrite deref_insert.
    case_decide as Hf; [|done].
    destruct (deref_nonempty_in_store s (data_s s)) as [l' Hl'].
    { intros E. rewrite E in Hd. simpl in Hd. lia. }
    pose proof (is_fresh (dom (store s))) as Hfresh.
    rewrite Hf in Hfresh. apply not_elem_of_dom in Hfresh. congruence.
  - done.
  - done.
  - unfold after, write_data_t. destruct (is_int v) eqn:Hv; simpl; [|done].
    unfold_monad. simpl. destruct (py_index _ _) as [k|]; simpl; [|done].
    rewrite deref_insert. case_decide as Heq; [|done].
    rewrite Heq. by apply Forall_insert.
  - rewrite read_data_t_state. done.
  - unfold after, push_data_s. destruct (is_int v) eqn:Hv; simpl; [|done].
    unfold_monad. simpl. unfold deref in *. simpl.
    rewrite lookup_total_insert_eq. apply Forall_app. split; [done|].
    by repeat constructor.
  - run. destruct (Z.gtb_spec (_len_data_s s) 0) as [Hpos|_]; simpl; [|done].
    destruct (deref s (data_s s)) as [|c l] eqn:El using rev_ind.
    { simpl in Hd. lia. }
    unfold deref in *. simpl. rewrite El, last_snoc. simpl.
    rewrite lookup_total_insert_eq, removelast_last.
    by apply Forall_app in Hi as [Hi _].
Qed.

Lemma do_calls_ints_only (cs : list call) (s : state) :
  stacks_kept s ->
  ints_only (deref s (data_s s)) ->
  ints_only (deref (do_calls cs s) (data_s (do_calls cs s))).
Proof.
  revert s. induction cs as [|c cs IH]; intros s Hs Hi; [done|].
  simpl. apply IH; [by apply do_call_stacks_kept | by apply do_call_ints_only].
Qed.

Lemma pop_data_s_int (s : state) :
  stacks_kept s ->
  ints_only (deref s (data_s s)) ->
  exists z : Z, (pop_data_s s).1 = Ret (VInt z).
Proof.
  intros (Hd & _ & _ & _ & _) Hi.
  run. destruct (Z.gtb_spec (_len_data_s s) 0) as [Hpos|_]; simpl;
    [|by exists 0].
  destruct (deref s (data_s s)) as [|c l] eqn:El using rev_ind.
  { simpl in Hd. lia. }
  unfold deref in *. simpl. rewrite El, last_snoc. simpl.
  unfold ints_only in Hi. rewrite Forall_app, Forall_singleton in Hi.
  destruct Hi as [_ Hc].
  destruct c as [z| | |]; try discriminate. by exists z.
Qed.

(** X12: after the construction and any sequence of calls, [pop_data_s]
    raises nothing and returns an integer: the list of the data stack is
    never too short for its depth counter, and the type checks of
    [push_data_s] and [write_data_t] keep every other kind of value out of
    it. *)
Theorem pop_data_s_returns_integer (s0 : state) (cs : list call) :
  exists z : Z, (pop_data_s (do_calls cs (constructed s0))).1 = Ret (VInt z).
Proof.
  apply pop_data_s_int.
  - apply do_calls_stacks_kept, constructed_stacks_kept.
  - apply do_calls_ints_only;
      [apply constructed_stacks_kept | apply constructed_ints_only].
Qed.

Lemma constructed_tapes_measured (s0 : state) : tapes_measured (constructed s0).
Proof.
  destruct (init_unfold s0) as (r1 & r2 & r3 & r4 & Hnd & _ & Heq).
  unfold tapes_measured, constructed, after. rewrite Heq.
  unfold deref. simpl.
  apply NoDup_cons in Hnd as [N1 Hnd]. apply NoDup_cons in Hnd as [N2 Hnd].
  apply NoDup_cons in Hnd as [N3 _].
  assert (r1 <> r2 /\ r1 <> r3 /\ r1 <> r4 /\ r3 <> r2 /\ r3 <> r4)
    as (? & ? & ? & ? & ?) by set_solver.
  rewrite !lookup_total_alt. simplify_map_eq. repeat split; eauto.
Qed.

Lemma tapes_measured_data_s (s : state) (l : list value) (n : Z) :
  tapes_measured s ->
  tapes_measured
    (set__len_data_s n (set_store (<[data_s s := l]> (store s)) s)).
Proof.
  intros (Hd & He & Hds & Hes & Hdi & Hei).
  unfold tapes_measured, deref in *. simpl.
  rewrite !lookup_total_insert_ne, !lookup_insert_ne by done. done.
Qed.

Lemma do_call_tapes_measured (c : call) (s : state) :
  tapes_measured s -> proper_call s c -> tapes_measured (do_call c s).
Proof.
  intros (Hd & He & Hds & Hes & Hdi & Hei) Hc.
  destruct c as [l|r|r|v| |v| ]; simpl.
  - (* the caller builds a list: a new object, not one of the tapes *)
    unfold after, new_list. simpl.
    pose proof (is_fresh (dom (store s))) as Hfresh.
    apply not_elem_of_dom in Hfresh.
    assert (fresh (dom (store s)) <> data_t s)
      by (intros E; rewrite E in Hfresh; destruct Hdi; congruence).
    assert (fresh (dom (store s)) <> exec_t s)
      by (intros E; rewrite E in Hfresh; destruct Hei; congruence).
    unfold tapes_measured. simpl. rewrite !deref_insert.
    repeat case_decide; try done.
    rewrite !lookup_insert_ne by done. done.
  - destruct Hc as [Hr Hne]. run. unfold tapes_measured, deref in *. simpl.
    done.
  - destruct Hc as [Hr Hne]. run. unfold tapes_measured, deref in *. simpl.
    done.
  - unfold after, write_data_t. destruct (is_int v); simpl; [|done].
    unfold_monad. simpl. destruct (py_index _ _) as [k|]; simpl; [|done].
    unfold tapes_measured. simpl. rewrite !deref_insert.
    rewrite !lookup_insert_is_Some.
    repeat case_decide; rewrite ?length_insert;
      repeat split; first [done | congruence | tauto | (destruct (decide (data_t s = exec_t s)); tauto)].
  - rewrite read_data_t_state. done.
  - unfold after, push_data_s. destruct (is_int v); simpl; [|done].
    unfold_monad. simpl. by apply tapes_measured_data_s.
  - run. destruct (_len_data_s s >? 0); simpl; [|done].
    destruct (last _); simpl; [|done].
    by apply (tapes_measured_data_s (set__len_data_s (_len_data_s s - 1) s)).
Qed.

Lemma do_calls_tapes_measured (cs : list call) (s : state) :
  tapes_measured s -> proper_calls cs s -> tapes_measured (do_calls cs s).
Proof.
  revert s. induction cs as [|c cs IH]; intros s Hs Hcs; [done|].
  destruct Hcs as [Hc Hcs]. simpl. apply IH; [|done].
  by apply do_call_tapes_measured.
Qed.

(** X13: the cached lengths stay right as long as the caller does not load
    the machine's own data stack as a tape: after the construction and any
    sequence of calls in which every load is handed an existing list other
    than the list of [data_s], [_len_data_t] is the length of the data tape
    and [_len_exec_t] the length of the executable tape. *)
Theorem cached_lengths_are_lengths (s0 : state) (cs : list call) :
  proper_calls cs (constructed s0) ->
  let s := do_calls cs (constructed s0) in
  _len_data_t s = Z.of_nat (length (deref s (data_t s)))
  /\ _len_exec_t s = Z.of_nat (length (deref s (exec_t s))).
Proof.
  intros Hcs.
  destruct (do_calls_tapes_measured cs _ (constructed_tapes_measured s0) Hcs)
    as (? & ? & _).
  done.
Qed.

Lemma cached_lengths_are_lengths_witness :
  let s := do_calls [CNewList [VInt 3; VInt 1]; CLoadDataTape 4%nat;
                     CPushDataS (VInt 5); CWriteDataT (VInt 9)]
                    (constructed blank) in
  _len_data_t s = Z.of_nat (length (deref s (data_t s)))
  /\ _len_exec_t s = Z.of_nat (length (deref s (exec_t s))).
Proof.
  apply (cached_lengths_are_lengths blank
           [CNewList [VInt 3; VInt 1]; CLoadDataTape 4%nat;
            CPushDataS (VInt 5); CWriteDataT (VInt 9)]).
  vm_compute. repeat split; try (eexists; reflexivity); discriminate.
Defined.

(** X14: why the loads must be kept away from the data stack: when the
    list of [data_s] is loaded as the data tape, the next push of an integer
    lengthens the tape under [_len_data_t], which then is one less than the
    length of the data tape. *)
Theorem loaded_data_stack_outgrows_cached_length (s : state) (z : Z) :
  let s' := after (load_data_tape (data_s s) ;;; push_data_s (VInt z)) s in
  data_t s' = data_s s'
  /\ Z.of_nat (length (deref s' (data_t s'))) = _len_data_t s' + 1.
Proof.
  unfold after, bind. rewrite load_data_tape_eq, push_data_s_int.
  unfold deref. simpl. rewrite lookup_total_insert_eq, length_app. simpl.
  split; [done | lia].
Qed.
